(** * The [bokeh-enum] Sphinx directive ([bokeh/sphinxext/bokeh_enum.py])

    A shallow embedding of [BokehEnumDirective.run] together with the
    Python built-ins it relies on (string slicing, [%r] formatting,
    [str.split], dictionary and list subscription, [getattr] with a
    default), followed by the properties of the directive.

    Python strings are modelled as [string]: one [ascii] per character,
    so the model covers code points below 256.  Exceptions are values of
    an error monad.  The documentation toolchain (module import, the
    [textwrap] library, the [ENUM_DETAIL] template and the docutils
    parser) is a record of functions, [Toolchain].  [Raising.run] is
    the directive once more, with the calls after the import that can
    raise kept in the error monad. *)

From Stdlib Require Import String Ascii List ZArith Lia Bool.
From stdpp Require Import base option gmap strings.

Import ListNotations.
Local Open Scope string_scope.

(** ** Python strings *)

Module PyStr.

Fixpoint take (n : nat) (s : string) : string :=
  match n, s with
  | S n', String c s' => String c (take n' s')
  | _, _ => EmptyString
  end.

Fixpoint drop (n : nat) (s : string) : string :=
  match n, s with
  | S n', String _ s' => drop n' s'
  | _, _ => s
  end.

(** Normalisation of one slice bound, as in CPython's
    [PySlice_AdjustIndices] for a step of 1: a negative bound counts
    from the end, and the result is clamped to [0..len]. *)
Definition adjust (len : Z) (i : Z) : Z :=
  if (i <? 0)%Z then Z.max 0 (i + len) else Z.min i len.

(** [s[lo:hi]]; an omitted bound is [None]. *)
Definition slice (s : string) (lo hi : option Z) : string :=
  let len := Z.of_nat (String.length s) in
  let start := match lo with Some i => adjust len i | None => 0%Z end in
  let stop := match hi with Some i => adjust len i | None => len end in
  take (Z.to_nat (stop - start)) (drop (Z.to_nat start) s).

(** [sub in s] *)
Definition contains (sub s : string) : Prop :=
  exists pre post, s = pre ++ sub ++ post.

Fixpoint starts_with (p s : string) : bool :=
  match p, s with
  | EmptyString, _ => true
  | String a p', String b s' => Ascii.eqb a b && starts_with p' s'
  | String _ _, EmptyString => false
  end.

Fixpoint containsb (sub s : string) : bool :=
  starts_with sub s ||
  match s with
  | EmptyString => false
  | String _ s' => containsb sub s'
  end.

(** [s.split("\n")]: every newline separates two fields, so the
    result is never empty and [""] gives [[""]]. *)
Fixpoint split_newline (s : string) : list string :=
  match s with
  | EmptyString => [EmptyString]
  | String c s' =>
      if Ascii.eqb c "010"%char then EmptyString :: split_newline s'
      else match split_newline s' with
           | h :: t => String c h :: t
           | [] => [String c EmptyString]
           end
  end.

Definition newline : string := String "010"%char EmptyString.

(** ["\n".join(lines)], the inverse of [split_newline]. *)
Fixpoint join_newline (lines : list string) : string :=
  match lines with
  | [] => EmptyString
  | [x] => x
  | x :: rest => x ++ newline ++ join_newline rest
  end.

(** *** [repr] of a string, as used by [%r]

    The rules are those of Python 3: the same literal as Python 2
    gives for a byte string of ASCII characters, and without the [u]
    that Python 2 puts before the literal of a unicode string. *)

Definition hex_digit (n : nat) : ascii :=
  match n with
  | 0 => "0" | 1 => "1" | 2 => "2" | 3 => "3" | 4 => "4" | 5 => "5"
  | 6 => "6" | 7 => "7" | 8 => "8" | 9 => "9" | 10 => "a" | 11 => "b"
  | 12 => "c" | 13 => "d" | 14 => "e" | _ => "f"
  end%char.

(** Characters [repr] copies unchanged unless they are the quote or
    the backslash: printable ASCII, and the printable part of
    Latin-1 (which excludes U+00A0 and U+00AD). *)
Definition printable (c : ascii) : bool :=
  let n := nat_of_ascii c in
  (Nat.leb 32 n && Nat.ltb n 127) || (Nat.leb 161 n && negb (Nat.eqb n 173)).

Definition escape_char (quote c : ascii) : string :=
  if Ascii.eqb c quote || Ascii.eqb c "\"%char
  then String "\"%char (String c EmptyString)
  else if Ascii.eqb c "009"%char then "\t"
  else if Ascii.eqb c "010"%char then "\n"
  else if Ascii.eqb c "013"%char then "\r"
  else if printable c then String c EmptyString
  else let n := nat_of_ascii c in
       String "\"%char
         (String "x"%char
            (String (hex_digit (n / 16))
               (String (hex_digit (n mod 16)) EmptyString))).

Fixpoint has_char (c : ascii) (s : string) : bool :=
  match s with
  | EmptyString => false
  | String a s' => Ascii.eqb a c || has_char c s'
  end.

Fixpoint escape (quote : ascii) (s : string) : string :=
  match s with
  | EmptyString => EmptyString
  | String c s' => escape_char quote c ++ escape quote s'
  end.

(** The literal is written with single quotes unless the string has a
    single quote and no double quote. *)
Definition str_repr (s : string) : string :=
  let quote :=
    if has_char "'"%char s && negb (has_char "034"%char s)
    then "034"%char else "'"%char in
  String quote (escape quote s ++ String quote EmptyString).

(** Strings that [repr] quotes without changing a character: every
    character is printable and not the backslash, and the string
    does not have both kinds of quote. *)
Definition unescaped_char (c : ascii) : bool :=
  printable c && negb (Ascii.eqb c "\"%char).

Fixpoint all_chars (f : ascii -> bool) (s : string) : bool :=
  match s with
  | EmptyString => true
  | String c s' => f c && all_chars f s'
  end.

Definition verbatim (s : string) : bool :=
  all_chars unescaped_char s
  && negb (has_char "'"%char s && has_char "034"%char s).

End PyStr.

(** ** Exceptions and the error monad *)

(** The exception classes that can reach the caller of [run].
    [ImportError] stands for the class with its subclasses, which is
    what an [except ImportError] clause matches; [OtherException] is any
    exception of a class this file never names. *)
Inductive exception : Type :=
| ImportError (msg : string)
| KeyError (key : string)
| IndexError
| SphinxError (message : string)
| OtherException (cls : string).

Inductive result (A : Type) : Type :=
| Return (a : A)
| Raise (e : exception).

Arguments Return {A} a.
Arguments Raise {A} e.

Definition bind {A B : Type} (m : result A) (k : A -> result B) : result B :=
  match m with
  | Return a => k a
  | Raise e => Raise e
  end.

Notation "'do' x <- m ; k" := (bind m (fun x => k))
  (at level 10, x name, m at level 100, k at level 200).
Notation "'do' ( x , y ) <- m ; k" := (bind m (fun '(x, y) => k))
  (at level 10, x name, y name, m at level 100, k at level 200).

(** [try: body except cls: handler], with the handler given the
    choice: [None] lets the exception propagate. *)
Definition try_except {A : Type} (body : result A)
    (handler : exception -> option (result A)) : result A :=
  match body with
  | Return a => Return a
  | Raise e => match handler e with
               | Some h => h
               | None => Raise e
               end
  end.

Definition is_ImportError (e : exception) : bool :=
  match e with
  | ImportError _ => true
  | _ => false
  end.

(** [d[k]] on a dictionary *)
Definition getitem (d : gmap string string) (k : string) : result string :=
  match d !! k with
  | Some v => Return v
  | None => Raise (KeyError k)
  end.

(** [l[0]] on a list *)
Definition first_item (l : list string) : result string :=
  match l with
  | x :: _ => Return x
  | [] => Raise IndexError
  end.

(** ** Python objects *)

(** The object found in the module is used for its [repr] alone. *)
Inductive object : Type :=
| PyNone
| Opaque (repr_text : string).

Definition repr (o : object) : string :=
  match o with
  | PyNone => "None"
  | Opaque r => r
  end.

(** A module is its attribute dictionary. *)
Record module : Type := { attrs : gmap string object }.

(** [getattr(m, name, default)] *)
Definition getattr (m : module) (name : string) (default : object) : object :=
  match attrs m !! name with
  | Some o => o
  | None => default
  end.

(** The values the local variable [fullrepr] takes: a string, then
    either the list of wrapped lines or [None]. *)
Inductive value : Type :=
| VNone
| VStr (s : string)
| VList (lines : list string).

(** ** The toolchain around the directive *)

Record TextWrapper : Type := {
  width : nat;
  initial_indent : string;
  subsequent_indent : string
}.

(** [wrapper = textwrap.TextWrapper(subsequent_indent='    ')]; the
    other settings keep their defaults. *)
Definition wrapper : TextWrapper :=
  {| width := 70; initial_indent := ""; subsequent_indent := "    " |}.

(** The keyword arguments of [ENUM_DETAIL.render]. *)
Record RenderArgs : Type := {
  ra_name : string;
  ra_module : string;
  ra_content : list string;
  ra_shortrepr : string;
  ra_fullrepr : value
}.

(** [docutils.statemachine.ViewList]: the lines and, for each, its
    source and offset. *)
Record ViewList : Type := {
  vl_data : list string;
  vl_items : list (string * Z)
}.

Definition ViewList_new : ViewList := {| vl_data := []; vl_items := [] |}.

(** [ViewList.append(item, source, offset=0)] *)
Definition ViewList_append (v : ViewList) (item source : string) : ViewList :=
  {| vl_data := vl_data v ++ [item];
     vl_items := vl_items v ++ [(source, 0%Z)] |}.

(** What [run] calls and does not define.  [import_module] is
    [importlib.import_module]; [TextWrapper_wrap w s] is [w.wrap(s)];
    [nested_parse_with_titles st v] is the list of children the parser
    adds to a fresh paragraph node whose document is that of [st].

    [ENUM_DETAIL_render] is the template of [bokeh/sphinxext/templates],
    which is not part of this file: it is taken as a parameter. *)
Class Toolchain : Type := {
  State : Type;
  Node : Type;
  import_module : string -> result module;
  TextWrapper_wrap : TextWrapper -> string -> list string;
  ENUM_DETAIL_render : RenderArgs -> string;
  nested_parse_with_titles : State -> ViewList -> list Node
}.

(** ** The directive *)

Record BokehEnumDirective `{Toolchain} : Type := {
  arguments : list string;
  options : gmap string string;
  content : list string;
  state : State
}.

Section Run.

Context `{T : Toolchain}.

(** The message of the [SphinxError]. *)
Definition import_failure_message (name modname : string) : string :=
  "Could not generate reference docs for " ++ PyStr.str_repr name
    ++ ": could not import module " ++ PyStr.str_repr modname.

(** Lines 56-63: the name, the imported module and the attribute. *)
Definition resolve (self : BokehEnumDirective) : result (string * object) :=
  do name <- first_item (arguments self);
  do module <- try_except
                 (do modname <- getitem (options self) "module";
                  import_module modname)
                 (fun e =>
                    if is_ImportError e
                    then Some (do a0 <- first_item (arguments self);
                               do m <- getitem (options self) "module";
                               Raise (SphinxError (import_failure_message a0 m)))
                    else None);
  let enum := getattr module name PyNone in
  Return (name, enum).

(** Lines 65-71: the short and the full form. *)
Definition abbreviate (fullrepr : string) : string * value :=
  if Nat.ltb 180 (String.length fullrepr)
  then (PyStr.slice fullrepr None (Some 40%Z) ++ " .... "
          ++ PyStr.slice fullrepr (Some (-40)%Z) None,
        VList (TextWrapper_wrap wrapper fullrepr))
  else (fullrepr, VNone).

(** Lines 56-79: the keyword arguments [run] gives to the template. *)
Definition render_args (self : BokehEnumDirective) : result RenderArgs :=
  do (name, enum) <- resolve self;
  let fullrepr := repr enum in
  let '(shortrepr, fullrepr) := abbreviate fullrepr in
  do modname <- getitem (options self) "module";
  Return {| ra_name := name;
            ra_module := modname;
            ra_content := content self;
            ra_shortrepr := shortrepr;
            ra_fullrepr := fullrepr |}.

(** Lines 81-83: the lines of the rendered text, each from the
    source ["<bokeh-prop>"]. *)
Definition to_view_list (rst_text : string) : ViewList :=
  fold_left (fun result line => ViewList_append result line "<bokeh-prop>")
            (PyStr.split_newline rst_text) ViewList_new.

Definition run (self : BokehEnumDirective) : result (list Node) :=
  do args <- render_args self;
  let rst_text := ENUM_DETAIL_render args in
  let result := to_view_list rst_text in
  Return (nested_parse_with_titles (state self) result).

End Run.

(** ** A sample toolchain

    A small, fully computable instance: one importable module
    [bokeh.sphinxext.sample] with a short and a long enumeration, one
    module whose import dies with an exception other than
    [ImportError], and stand-ins for the wrapper, the template and the
    parser. *)

Module Sample.

Fixpoint replicate (n : nat) (s : string) : string :=
  match n with
  | O => EmptyString
  | S n' => s ++ replicate n' s
  end.

Definition baz : object := Opaque "Enumeration(a, b, c)".

(** 12 + 60 * 3 + 1 = 193 characters. *)
Definition big : object :=
  Opaque ("Enumeration(" ++ replicate 60 "v, " ++ ")").

Definition sample_module : module :=
  {| attrs := <["baz" := baz]> (<["big" := big]> ∅) |}.

Definition sample_import (modname : string) : result module :=
  if String.eqb modname "bokeh.sphinxext.sample" then Return sample_module
  else if String.eqb modname "bokeh.sphinxext.broken"
  then Raise (OtherException "SyntaxError")
  else Raise (ImportError ("No module named " ++ modname)).

(** Cuts the text into pieces of the available width, without regard
    for words. *)
Fixpoint cut (fuel : nat) (w : TextWrapper) (first : bool) (s : string)
    : list string :=
  match fuel with
  | O => []
  | S fuel' =>
      let indent := if first then initial_indent w else subsequent_indent w in
      let room := Nat.max 1 (width w - String.length indent) in
      match s with
      | EmptyString => []
      | _ => (indent ++ PyStr.take room s)
               :: cut fuel' w false (PyStr.drop room s)
      end
  end.

Definition sample_wrap (w : TextWrapper) (s : string) : list string :=
  cut (String.length s) w true s.

Definition lines_of (v : value) : list string :=
  match v with
  | VNone => []
  | VStr s => [s]
  | VList l => l
  end.

Definition sample_render (a : RenderArgs) : string :=
  PyStr.join_newline
    ([".. data:: " ++ ra_name a; "    :module: " ++ ra_module a]
       ++ ra_content a ++ [ra_shortrepr a] ++ lines_of (ra_fullrepr a)).

#[global] Instance toolchain : Toolchain :=
  {| State := unit;
     Node := string;
     import_module := sample_import;
     TextWrapper_wrap := sample_wrap;
     ENUM_DETAIL_render := sample_render;
     nested_parse_with_titles := fun _ v => vl_data v |}.

Definition directive (name : string) (opts : list (string * string))
    (body : list string) : BokehEnumDirective :=
  {| arguments := [name];
     options := list_to_map opts;
     content := body;
     state := tt |}.

(** [.. bokeh-enum:: baz] with [:module: bokeh.sphinxext.sample] *)
Definition baz_directive : BokehEnumDirective :=
  directive "baz" [("module", "bokeh.sphinxext.sample")] ["The values."].

Definition big_directive : BokehEnumDirective :=
  directive "big" [("module", "bokeh.sphinxext.sample")] [].


(** The module cannot be imported. *)
Definition missing_directive : BokehEnumDirective :=
  directive "baz" [("module", "bokeh.sphinxext.nowhere")] [].

(** As above, with a backslash in the attribute name. *)
Definition backslash_directive : BokehEnumDirective :=
  directive "a\b" [("module", "bokeh.sphinxext.nowhere")] [].

(** The [:module:] option is left out. *)
Definition bare_directive : BokehEnumDirective :=
  directive "baz" [] [].

(** Two more arguments and one more option than [baz_directive]. *)
Definition cluttered_directive : BokehEnumDirective :=
  {| arguments := ["baz"; "extra"; "more"];
     options := list_to_map [("module", "bokeh.sphinxext.sample");
                             ("noindex", "")];
     content := ["The values."];
     state := tt |}.

(** The import of the module dies with a [SyntaxError]. *)
Definition broken_directive : BokehEnumDirective :=
  directive "baz" [("module", "bokeh.sphinxext.broken")] [].

End Sample.

(** ** Reading a string literal back

    The inverse of [PyStr.str_repr], used to show that the message of
    the [SphinxError] determines the two names it was made from. *)

Module PyLiteral.

Definition unhex (c : ascii) : option nat :=
  let n := nat_of_ascii c in
  if Nat.leb 48 n && Nat.leb n 57 then Some (n - 48)
  else if Nat.leb 97 n && Nat.leb n 102 then Some (n - 87)
  else None.

Definition push (c : ascii) (r : option (string * string))
    : option (string * string) :=
  match r with
  | Some (s, rest) => Some (String c s, rest)
  | None => None
  end.

(** The characters of a literal up to its closing quote, and what
    follows the quote. *)
Fixpoint read_body (quote : ascii) (s : string) : option (string * string) :=
  match s with
  | EmptyString => None
  | String c s1 =>
      if Ascii.eqb c quote then Some (EmptyString, s1)
      else if Ascii.eqb c "\"%char then
        match s1 with
        | EmptyString => None
        | String d s2 =>
            if Ascii.eqb d "x"%char then
              match s2 with
              | String h (String l s3) =>
                  match unhex h, unhex l with
                  | Some a, Some b =>
                      push (ascii_of_nat (16 * a + b)) (read_body quote s3)
                  | _, _ => None
                  end
              | _ => None
              end
            else if Ascii.eqb d "t"%char then
              push "009"%char (read_body quote s2)
            else if Ascii.eqb d "n"%char then
              push "010"%char (read_body quote s2)
            else if Ascii.eqb d "r"%char then
              push "013"%char (read_body quote s2)
            else push d (read_body quote s2)
        end
      else push c (read_body quote s1)
  end.

Definition read_literal (s : string) : option (string * string) :=
  match s with
  | EmptyString => None
  | String q s' =>
      if Ascii.eqb q "'"%char || Ascii.eqb q "034"%char
      then read_body q s' else None
  end.

Fixpoint strip_prefix (p s : string) : option string :=
  match p, s with
  | EmptyString, _ => Some s
  | String a p', String b s' =>
      if Ascii.eqb a b then strip_prefix p' s' else None
  | String _ _, EmptyString => None
  end.

(** The two names of a message made by [import_failure_message]. *)
Definition read_import_failure_message (message : string)
    : option (string * string) :=
  match strip_prefix "Could not generate reference docs for " message with
  | None => None
  | Some rest1 =>
      match read_literal rest1 with
      | None => None
      | Some (name, rest2) =>
          match strip_prefix ": could not import module " rest2 with
          | None => None
          | Some rest3 =>
              match read_literal rest3 with
              | Some (modname, EmptyString) => Some (name, modname)
              | _ => None
              end
          end
      end
  end.

(** [s.count(c)] for a character [c] *)
Fixpoint count_char (c : ascii) (s : string) : nat :=
  match s with
  | EmptyString => 0
  | String a s' => (if Ascii.eqb a c then 1 else 0) + count_char c s'
  end.

End PyLiteral.

(** ** The calls that can raise after the import

    [run] above takes the attribute's [repr], the rendering of the
    template and the parse for granted.  In the source each of them is
    a call that can raise, and none of them is inside the [try]: line
    65 runs the attribute's own [__repr__], line 73 renders the
    template and line 86 calls the parser.  [Raising.run] is the same
    function with these three calls in the error monad; [run] is the
    case where none of them raises (see [run_agrees]). *)

Module Raising.

(** An object is used for its [repr] alone, which also may raise. *)
Inductive object : Type :=
| PyNone
| Opaque (repr_text : string)
| Unprintable (e : exception).

Definition repr (o : object) : result string :=
  match o with
  | PyNone => Return "None"
  | Opaque r => Return r
  | Unprintable e => Raise e
  end.

Record module : Type := { attrs : gmap string object }.

(** [getattr(m, name, default)] *)
Definition getattr (m : module) (name : string) (default : object) : object :=
  match attrs m !! name with
  | Some o => o
  | None => default
  end.

(** As [Toolchain] above, with a template and a parser that can
    raise.  [TextWrapper_wrap] stays a function: with a width of 70
    and a string to wrap, [wrap] raises nothing. *)
Class Toolchain : Type := {
  State : Type;
  Node : Type;
  import_module : string -> result module;
  TextWrapper_wrap : TextWrapper -> string -> list string;
  ENUM_DETAIL_render : RenderArgs -> result string;
  nested_parse_with_titles : State -> ViewList -> result (list Node)
}.

Record BokehEnumDirective `{Toolchain} : Type := {
  arguments : list string;
  options : gmap string string;
  content : list string;
  state : State
}.

Section Run.

Context `{T : Toolchain}.

(** Lines 56-63: the name, the imported module and the attribute. *)
Definition resolve (self : BokehEnumDirective) : result (string * object) :=
  do name <- first_item (arguments self);
  do module <- try_except
                 (do modname <- getitem (options self) "module";
                  import_module modname)
                 (fun e =>
                    if is_ImportError e
                    then Some (do a0 <- first_item (arguments self);
                               do m <- getitem (options self) "module";
                               Raise (SphinxError (import_failure_message a0 m)))
                    else None);
  let enum := getattr module name PyNone in
  Return (name, enum).

(** Lines 66-71: the short and the full form. *)
Definition abbreviate (fullrepr : string) : string * value :=
  if Nat.ltb 180 (String.length fullrepr)
  then (PyStr.slice fullrepr None (Some 40%Z) ++ " .... "
          ++ PyStr.slice fullrepr (Some (-40)%Z) None,
        VList (TextWrapper_wrap wrapper fullrepr))
  else (fullrepr, VNone).

(** The keyword arguments of line 73, for an attribute whose [repr]
    is [fullrepr]. *)
Definition template_args (self : BokehEnumDirective)
    (name modname fullrepr : string) : RenderArgs :=
  {| ra_name := name;
     ra_module := modname;
     ra_content := content self;
     ra_shortrepr := fst (abbreviate fullrepr);
     ra_fullrepr := snd (abbreviate fullrepr) |}.

Definition run (self : BokehEnumDirective) : result (list Node) :=
  do (name, enum) <- resolve self;
  do fullrepr <- repr enum;
  do modname <- getitem (options self) "module";
  do rst_text <- ENUM_DETAIL_render (template_args self name modname fullrepr);
  let result := to_view_list rst_text in
  nested_parse_with_titles (state self) result.

End Run.

End Raising.

(** *** [run] as a case of [Raising.run] *)

Definition lift_object (o : object) : Raising.object :=
  match o with
  | PyNone => Raising.PyNone
  | Opaque r => Raising.Opaque r
  end.

Definition lift_module (m : module) : Raising.module :=
  {| Raising.attrs := lift_object <$> attrs m |}.

Definition lift_toolchain (T : Toolchain) : Raising.Toolchain :=
  {| Raising.State := State;
     Raising.Node := Node;
     Raising.import_module :=
       fun modname => do m <- import_module modname; Return (lift_module m);
     Raising.TextWrapper_wrap := TextWrapper_wrap;
     Raising.ENUM_DETAIL_render := fun args => Return (ENUM_DETAIL_render args);
     Raising.nested_parse_with_titles :=
       fun st v => Return (nested_parse_with_titles st v) |}.

Definition lift_directive `{T : Toolchain} (self : BokehEnumDirective)
    : @Raising.BokehEnumDirective (lift_toolchain T) :=
  @Raising.Build_BokehEnumDirective (lift_toolchain T)
    (arguments self) (options self) (content self) (state self).

(** *** A sample with an attribute that cannot be printed *)

Module RaisingSample.

(** [bad.__repr__] raises [RuntimeError]. *)
Definition bad : Raising.object := Raising.Unprintable (OtherException "RuntimeError").

Definition sample_module : Raising.module :=
  {| Raising.attrs :=
       <["baz" := Raising.Opaque "Enumeration(a, b, c)"]> (<["bad" := bad]> ∅) |}.

Definition sample_import (modname : string) : result Raising.module :=
  if String.eqb modname "bokeh.sphinxext.sample" then Return sample_module
  else Raise (ImportError ("No module named " ++ modname)).

(** The template fails on a body of more than one line. *)
Definition sample_render (a : RenderArgs) : result string :=
  match ra_content a with
  | _ :: _ :: _ => Raise (OtherException "TemplateError")
  | _ => Return (Sample.sample_render a)
  end.

#[global] Instance toolchain : Raising.Toolchain :=
  {| Raising.State := unit;
     Raising.Node := string;
     Raising.import_module := sample_import;
     Raising.TextWrapper_wrap := Sample.sample_wrap;
     Raising.ENUM_DETAIL_render := sample_render;
     Raising.nested_parse_with_titles := fun _ v => Return (vl_data v) |}.

Definition directive (name : string) (opts : list (string * string))
    (body : list string) : Raising.BokehEnumDirective :=
  {| Raising.arguments := [name];
     Raising.options := list_to_map opts;
     Raising.content := body;
     Raising.state := tt |}.

Definition baz_directive : Raising.BokehEnumDirective :=
  directive "baz" [("module", "bokeh.sphinxext.sample")] ["The values."].


Definition bare_directive : Raising.BokehEnumDirective :=
  directive "baz" [] [].


End RaisingSample.

(** * Properties *)

(** ** Facts about Python strings *)

Module PyStrFacts.
Import PyStr.

Lemma length_app (a b : string) :
  String.length (a ++ b) = String.length a + String.length b.
Proof. induction a as [|c a IH]; simpl; [reflexivity | now rewrite IH]. Qed.

Lemma app_cons (c : ascii) (a b : string) :
  String c a ++ b = String c (a ++ b).
Proof. reflexivity. Qed.

Lemma app_empty_l (a : string) : EmptyString ++ a = a.
Proof. reflexivity. Qed.

Lemma app_assoc (a b c : string) : (a ++ b) ++ c = a ++ b ++ c.
Proof.
  induction a as [|x a IH]; [reflexivity|].
  rewrite !app_cons. now rewrite IH.
Qed.

Lemma app_empty_r (a : string) : a ++ EmptyString = a.
Proof.
  induction a as [|x a IH]; [reflexivity|].
  rewrite app_cons. now rewrite IH.
Qed.

Lemma length_take (n : nat) (s : string) :
  String.length (take n s) = Nat.min n (String.length s).
Proof.
  revert s; induction n as [|n IH]; intros [|c s]; simpl; try reflexivity.
  now rewrite IH.
Qed.

Lemma length_drop (n : nat) (s : string) :
  String.length (drop n s) = String.length s - n.
Proof.
  revert s; induction n as [|n IH]; intros [|c s]; simpl; try reflexivity.
  apply IH.
Qed.

Lemma take_all (n : nat) (s : string) :
  String.length s <= n -> take n s = s.
Proof.
  revert s; induction n as [|n IH]; intros [|c s] Hlen; simpl in *;
    try reflexivity; try lia.
  f_equal. apply IH. lia.
Qed.

Lemma take_drop (n : nat) (s : string) : take n s ++ drop n s = s.
Proof.
  revert s; induction n as [|n IH]; intros [|c s]; simpl; try reflexivity.
  rewrite app_cons. now rewrite IH.
Qed.

(** [s[:n]] is the first [n] characters. *)
Lemma slice_head (n : nat) (s : string) :
  slice s None (Some (Z.of_nat n)) = take (Nat.min n (String.length s)) s.
Proof.
  unfold slice, adjust.
  destruct (Z.ltb_spec (Z.of_nat n) 0) as [Hneg|_]; [lia|].
  simpl. f_equal. lia.
Qed.

(** [s[-n:]] is the last [n] characters, or all of [s] if it is
    shorter. *)
Lemma slice_tail (n : nat) (s : string) :
  0 < n ->
  slice s (Some (- Z.of_nat n)%Z) None = drop (String.length s - n) s.
Proof.
  intros Hn. unfold slice, adjust.
  destruct (Z.ltb_spec (- Z.of_nat n) 0) as [_|Hpos]; [|lia].
  replace (Z.to_nat (Z.max 0 (- Z.of_nat n + Z.of_nat (String.length s))))
    with (String.length s - n) by lia.
  apply take_all. rewrite length_drop. lia.
Qed.

Lemma starts_with_spec (p s : string) :
  starts_with p s = true <-> exists post, s = p ++ post.
Proof.
  revert s; induction p as [|a p IH]; intros s; simpl.
  - split; [intros _; now exists s | reflexivity].
  - destruct s as [|b s].
    + split; [discriminate | intros [post Hpost]; discriminate].
    + rewrite andb_true_iff, IH. split.
      * intros [Hab [post ->]]. apply Ascii.eqb_eq in Hab. subst b.
        now exists post.
      * intros [post Hpost]. injection Hpost as -> ->.
        split; [apply Ascii.eqb_refl | now exists post].
Qed.

(** The executable test decides [contains]. *)
Lemma containsb_spec (sub s : string) :
  containsb sub s = true <-> contains sub s.
Proof.
  unfold contains. induction s as [|c s IH].
  - simpl. rewrite orb_false_r, starts_with_spec. split.
    + intros [post Hpost]. now exists EmptyString, post.
    + intros [[|x pre] [post Hpost]]; [now exists post | discriminate].
  - change (containsb sub (String c s))
      with (starts_with sub (String c s) || containsb sub s).
    rewrite orb_true_iff, starts_with_spec, IH. split.
    + intros [[post Hpost] | [pre [post Hpost]]].
      * now exists EmptyString, post.
      * exists (String c pre), post. simpl. now rewrite Hpost.
    + intros [[|x pre] [post Hpost]].
      * left. now exists post.
      * right. simpl in Hpost. injection Hpost as _ ->. now exists pre, post.
Qed.

Lemma split_newline_nonempty (s : string) : split_newline s <> [].
Proof.
  induction s as [|c s IH]; simpl; [discriminate|].
  destruct (Ascii.eqb c "010"%char); [discriminate|].
  destruct (split_newline s); [contradiction | discriminate].
Qed.

(** Joining the lines of a text with newlines gives the text back. *)
Lemma join_split_newline (s : string) :
  join_newline (split_newline s) = s.
Proof.
  induction s as [|c s IH]; [reflexivity|]. simpl.
  destruct (Ascii.eqb_spec c "010"%char) as [->|Hc].
  - pose proof (split_newline_nonempty s) as Hne.
    destruct (split_newline s) as [|h t]; [contradiction|].
    change (join_newline (EmptyString :: h :: t))
      with (EmptyString ++ newline ++ join_newline (h :: t)).
    now rewrite IH.
  - pose proof (split_newline_nonempty s) as Hne.
    destruct (split_newline s) as [|h t]; [contradiction|].
    destruct t as [|h' t].
    + simpl in *. now rewrite IH.
    + change (join_newline (String c h :: h' :: t))
        with (String c h ++ newline ++ join_newline (h' :: t)).
      change (join_newline (h :: h' :: t))
        with (h ++ newline ++ join_newline (h' :: t)) in IH.
      rewrite app_cons. now rewrite IH.
Qed.

(** No line of a split text has a newline in it. *)
Lemma split_newline_lines (s : string) :
  Forall (fun line => has_char "010"%char line = false) (split_newline s).
Proof.
  induction s as [|c s IH]; simpl.
  - constructor; [reflexivity | constructor].
  - destruct (Ascii.eqb c "010"%char) eqn:Hc.
    + constructor; [reflexivity | exact IH].
    + destruct (split_newline s) as [|h t].
      * constructor; [simpl; now rewrite Hc | constructor].
      * inversion IH as [|? ? Hh Ht]; subst.
        constructor; [simpl; now rewrite Hc, Hh | exact Ht].
Qed.

Lemma contains_middle (pre sub post : string) :
  contains sub (pre ++ sub ++ post).
Proof. now exists pre, post. Qed.

Lemma printable_not_control (c : ascii) :
  printable c = true ->
  Ascii.eqb c "009"%char = false /\ Ascii.eqb c "010"%char = false
  /\ Ascii.eqb c "013"%char = false.
Proof.
  intros Hp. repeat split; apply Ascii.eqb_neq; intros ->; discriminate Hp.
Qed.

Lemma escape_unescaped (quote : ascii) (s : string) :
  all_chars unescaped_char s = true ->
  has_char quote s = false ->
  escape quote s = s.
Proof.
  induction s as [|c s IH]; simpl; [reflexivity|].
  intros Hall Hq.
  apply andb_true_iff in Hall as [Hc Hall].
  apply orb_false_iff in Hq as [Hcq Hq].
  rewrite (IH Hall Hq). unfold escape_char.
  apply andb_true_iff in Hc as [Hp Hb].
  apply negb_true_iff in Hb. rewrite Hcq, Hb. simpl.
  destruct (printable_not_control c Hp) as (-> & -> & ->).
  now rewrite Hp.
Qed.

Lemma repr_verbatim (s : string) :
  verbatim s = true ->
  exists quote, str_repr s = String quote (s ++ String quote EmptyString).
Proof.
  unfold verbatim, str_repr. intros Hv.
  apply andb_true_iff in Hv as [Hall Hq].
  destruct (has_char "'"%char s) eqn:Hs;
    destruct (has_char "034"%char s) eqn:Hd; simpl in *; try discriminate.
  - exists "034"%char. now rewrite escape_unescaped.
  - exists "'"%char. now rewrite escape_unescaped.
  - exists "'"%char. now rewrite escape_unescaped.
Qed.

Lemma repr_contains_verbatim (s : string) :
  verbatim s = true -> contains s (str_repr s).
Proof.
  intros Hv. destruct (repr_verbatim s Hv) as [quote ->].
  now exists (String quote EmptyString), (String quote EmptyString).
Qed.

Lemma contains_trans (a b c : string) :
  contains a b -> contains b c -> contains a c.
Proof.
  intros (p1 & q1 & ->) (p2 & q2 & ->).
  exists (p2 ++ p1), (q1 ++ q2). now rewrite !app_assoc.
Qed.

End PyStrFacts.

(** ** How [run] proceeds *)

Section RunFacts.

Context `{T : Toolchain}.
Import PyStr PyStrFacts.

(** The outcome of lines 56-63, case by case. *)
Lemma resolve_cases (self : BokehEnumDirective) :
  resolve self =
  match arguments self with
  | [] => Raise IndexError
  | name :: _ =>
      match options self !! "module" with
      | None => Raise (KeyError "module")
      | Some modname =>
          match import_module modname with
          | Return m => Return (name, getattr m name PyNone)
          | Raise e =>
              if is_ImportError e
              then Raise (SphinxError (import_failure_message name modname))
              else Raise e
          end
      end
  end.
Proof.
  unfold resolve, getitem.
  destruct (arguments self) as [|name rest]; [reflexivity|]. simpl.
  destruct (options self !! "module") as [modname|]; [|reflexivity]. simpl.
  destruct (import_module modname) as [m|e]; [reflexivity|]. simpl.
  destruct (is_ImportError e); reflexivity.
Qed.

Lemma resolve_inv (self : BokehEnumDirective) (name : string) (enum : object) :
  resolve self = Return (name, enum) ->
  exists rest modname m,
    arguments self = name :: rest
    /\ options self !! "module" = Some modname
    /\ import_module modname = Return m
    /\ enum = getattr m name PyNone.
Proof.
  rewrite resolve_cases.
  destruct (arguments self) as [|n rest] eqn:Ha; [discriminate|].
  destruct (options self !! "module") as [modname|] eqn:Ho; [|discriminate].
  destruct (import_module modname) as [m|e] eqn:Hi.
  - intros [= -> <-]. now exists rest, modname, m.
  - destruct (is_ImportError e); discriminate.
Qed.


(** Once the attribute is resolved, the template arguments follow. *)
Lemma render_args_resolved (self : BokehEnumDirective) name enum :
  resolve self = Return (name, enum) ->
  exists modname,
    options self !! "module" = Some modname
    /\ render_args self =
       Return {| ra_name := name;
                 ra_module := modname;
                 ra_content := content self;
                 ra_shortrepr := fst (abbreviate (repr enum));
                 ra_fullrepr := snd (abbreviate (repr enum)) |}.
Proof.
  intros Hres.
  destruct (resolve_inv self name enum Hres) as (rest & modname & m & _ & Ho & _).
  exists modname. split; [exact Ho|].
  unfold render_args. rewrite Hres. simpl.
  destruct (abbreviate (repr enum)) as [short full]. simpl.
  unfold getitem. now rewrite Ho.
Qed.

Lemma render_args_inv (self : BokehEnumDirective) (args : RenderArgs) :
  render_args self = Return args ->
  exists name enum, resolve self = Return (name, enum).
Proof.
  unfold render_args.
  destruct (resolve self) as [[name enum]|e]; [|discriminate].
  intros _. now exists name, enum.
Qed.

Lemma render_args_raise (self : BokehEnumDirective) (e : exception) :
  render_args self = Raise e <-> resolve self = Raise e.
Proof.
  split.
  - intros Hra. destruct (resolve self) as [[name enum]|e'] eqn:Hres.
    + destruct (render_args_resolved self name enum Hres) as (modname & _ & Heq).
      rewrite Heq in Hra. discriminate.
    + unfold render_args in Hra. rewrite Hres in Hra. simpl in Hra. congruence.
  - intros Hres. unfold render_args. now rewrite Hres.
Qed.

Lemma run_unfold (self : BokehEnumDirective) :
  run self =
  match render_args self with
  | Return args =>
      Return (nested_parse_with_titles (state self)
                (to_view_list (ENUM_DETAIL_render args)))
  | Raise e => Raise e
  end.
Proof. reflexivity. Qed.


Lemma run_raise (self : BokehEnumDirective) (e : exception) :
  run self = Raise e <-> resolve self = Raise e.
Proof.
  rewrite <- render_args_raise, run_unfold.
  destruct (render_args self); split; congruence.
Qed.

(** *** The two branches of the length test *)

Lemma abbreviate_long (r : string) :
  180 < String.length r ->
  abbreviate r =
  (take 40 r ++ " .... " ++ drop (String.length r - 40) r,
   VList (TextWrapper_wrap wrapper r)).
Proof.
  intros Hlen. unfold abbreviate.
  destruct (Nat.ltb_spec 180 (String.length r)) as [_|Hle]; [|lia].
  change 40%Z with (Z.of_nat 40). rewrite slice_head.
  change (-40)%Z with (- Z.of_nat 40)%Z.
  rewrite slice_tail by lia.
  now replace (Nat.min 40 (String.length r)) with 40 by lia.
Qed.

Lemma abbreviate_short (r : string) :
  String.length r <= 180 -> abbreviate r = (r, VNone).
Proof.
  intros Hlen. unfold abbreviate.
  destruct (Nat.ltb_spec 180 (String.length r)) as [Hlt|_]; [lia|reflexivity].
Qed.

Lemma length_abbreviate_long (r : string) :
  180 < String.length r -> String.length (fst (abbreviate r)) = 86.
Proof.
  intros Hlen. rewrite (abbreviate_long r Hlen). cbn [fst].
  rewrite !length_app, length_take, length_drop.
  change (String.length " .... ") with 6. lia.
Qed.

(** *** The view list handed to the parser *)

Lemma to_view_list_fold (lines : list string) (v : ViewList) :
  fold_left (fun result line => ViewList_append result line "<bokeh-prop>")
            lines v
  = {| vl_data := vl_data v ++ lines;
       vl_items := vl_items v ++ map (fun _ => ("<bokeh-prop>", 0%Z)) lines |}.
Proof.
  revert v; induction lines as [|l lines IH]; intros v; simpl.
  - rewrite !app_nil_r. now destruct v.
  - rewrite IH. unfold ViewList_append. simpl.
    now rewrite <- !List.app_assoc.
Qed.

Lemma to_view_list_lines (rst_text : string) :
  to_view_list rst_text =
  {| vl_data := split_newline rst_text;
     vl_items := map (fun _ => ("<bokeh-prop>", 0%Z)) (split_newline rst_text) |}.
Proof. unfold to_view_list. now rewrite to_view_list_fold. Qed.

End RunFacts.

(** ** The short and the full form *)






(** C9: the short form given to the template never has more than 180
    characters: it has exactly 86 (40 + 6 + 40) when the [repr] is
    longer than 180 characters, and as many as the [repr] otherwise. *)
Theorem shortrepr_length_bound `{T : Toolchain}
    (self : BokehEnumDirective) (args : RenderArgs) :
  render_args self = Return args ->
  exists name enum,
    resolve self = Return (name, enum)
    /\ String.length (ra_shortrepr args) <= 180
    /\ (180 < String.length (repr enum) ->
        String.length (ra_shortrepr args) = 86)
    /\ (String.length (repr enum) <= 180 ->
        String.length (ra_shortrepr args) = String.length (repr enum)).
Proof.
  intros Hra.
  destruct (render_args_inv self args Hra) as (name & enum & Hres).
  exists name, enum. split; [exact Hres|].
  destruct (render_args_resolved self name enum Hres) as (modname & _ & Hra').
  rewrite Hra' in Hra. injection Hra as <-. cbn [ra_shortrepr].
  destruct (Nat.le_gt_cases (String.length (repr enum)) 180) as [Hle|Hgt].
  - rewrite (abbreviate_short _ Hle). cbn [fst].
    split; [exact Hle | split; [lia | reflexivity]].
  - rewrite (length_abbreviate_long _ Hgt).
    split; [lia | split; [reflexivity | lia]].
Qed.

Lemma shortrepr_length_bound_witness :
  exists args,
    render_args Sample.big_directive = Return args
    /\ exists name enum,
         resolve Sample.big_directive = Return (name, enum)
         /\ String.length (ra_shortrepr args) <= 180
         /\ (180 < String.length (repr enum) ->
             String.length (ra_shortrepr args) = 86)
         /\ (String.length (repr enum) <= 180 ->
             String.length (ra_shortrepr args) = String.length (repr enum)).
Proof.
  exists {| ra_name := "big";
            ra_module := "bokeh.sphinxext.sample";
            ra_content := [];
            ra_shortrepr := fst (abbreviate (repr Sample.big));
            ra_fullrepr := snd (abbreviate (repr Sample.big)) |}.
  split; [vm_compute; reflexivity|].
  apply (shortrepr_length_bound Sample.big_directive).
  vm_compute; reflexivity.
Defined.

(** C10: when the [repr] has at most 180 characters the full form
    given to the template is [None]; it is a list of wrapped lines
    only when the [repr] is longer than 180 characters. *)
Theorem fullrepr_none_unless_long `{T : Toolchain}
    (self : BokehEnumDirective) (args : RenderArgs) :
  render_args self = Return args ->
  exists name enum,
    resolve self = Return (name, enum)
    /\ (String.length (repr enum) <= 180 -> ra_fullrepr args = VNone)
    /\ (ra_fullrepr args <> VNone ->
        180 < String.length (repr enum)
        /\ ra_fullrepr args = VList (TextWrapper_wrap wrapper (repr enum))).
Proof.
  intros Hra.
  destruct (render_args_inv self args Hra) as (name & enum & Hres).
  exists name, enum. split; [exact Hres|].
  destruct (render_args_resolved self name enum Hres) as (modname & _ & Hra').
  rewrite Hra' in Hra. injection Hra as <-. cbn [ra_fullrepr].
  destruct (Nat.le_gt_cases (String.length (repr enum)) 180) as [Hle|Hgt].
  - rewrite (abbreviate_short _ Hle). cbn [snd].
    split; [reflexivity | intros Hne; now destruct Hne].
  - rewrite (abbreviate_long _ Hgt). cbn [snd].
    split; [lia | intros _; split; [exact Hgt | reflexivity]].
Qed.

Lemma fullrepr_none_unless_long_witness :
  exists args,
    render_args Sample.baz_directive = Return args
    /\ exists name enum,
         resolve Sample.baz_directive = Return (name, enum)
         /\ (String.length (repr enum) <= 180 -> ra_fullrepr args = VNone)
         /\ (ra_fullrepr args <> VNone ->
             180 < String.length (repr enum)
             /\ ra_fullrepr args = VList (TextWrapper_wrap wrapper (repr enum))).
Proof.
  exists {| ra_name := "baz";
            ra_module := "bokeh.sphinxext.sample";
            ra_content := ["The values."];
            ra_shortrepr := "Enumeration(a, b, c)";
            ra_fullrepr := VNone |}.
  split; [vm_compute; reflexivity|].
  apply (fullrepr_none_unless_long Sample.baz_directive).
  vm_compute; reflexivity.
Defined.

(** ** Errors *)

(** C3, as stated, fails: the message carries the names through [%r],
    and the [repr] of a name with a backslash in it does not contain
    the name. *)
Lemma import_failure_message_can_lack_the_name :
  ~ (forall (T : Toolchain) (self : BokehEnumDirective)
            (name : string) (rest : list string) (modname msg : string),
        arguments self = name :: rest ->
        options self !! "module" = Some modname ->
        import_module modname = Raise (ImportError msg) ->
        exists message,
          run self = Raise (SphinxError message)
          /\ PyStr.contains name message
          /\ PyStr.contains modname message).
Proof.
  intros Hclaim.
  destruct (Hclaim Sample.toolchain Sample.backslash_directive
              "a\b" [] "bokeh.sphinxext.nowhere"
              "No module named bokeh.sphinxext.nowhere")
    as (message & Hrun & Hname & _).
  - reflexivity.
  - vm_compute; reflexivity.
  - vm_compute; reflexivity.
  - vm_compute in Hrun. injection Hrun as <-.
    apply PyStrFacts.containsb_spec in Hname.
    vm_compute in Hname. discriminate Hname.
Qed.

(** C3, amended: when the import of the named module raises
    [ImportError], [run] raises [SphinxError] and returns no nodes; the
    message contains the [repr] of the attribute name and the [repr] of
    the module name, and so each name itself whenever [repr] only puts
    quotes around it. *)
Theorem import_error_reported `{T : Toolchain}
    (self : BokehEnumDirective) (name : string) (rest : list string)
    (modname msg : string) :
  arguments self = name :: rest ->
  options self !! "module" = Some modname ->
  import_module modname = Raise (ImportError msg) ->
  run self = Raise (SphinxError (import_failure_message name modname))
  /\ (forall nodes, run self <> Return nodes)
  /\ PyStr.contains (PyStr.str_repr name) (import_failure_message name modname)
  /\ PyStr.contains (PyStr.str_repr modname)
       (import_failure_message name modname)
  /\ (PyStr.verbatim name = true ->
      PyStr.contains name (import_failure_message name modname))
  /\ (PyStr.verbatim modname = true ->
      PyStr.contains modname (import_failure_message name modname)).
Proof.
  intros Ha Ho Hi.
  assert (Hrun : run self
                 = Raise (SphinxError (import_failure_message name modname))).
  { apply run_raise. now rewrite resolve_cases, Ha, Ho, Hi. }
  assert (Hn : PyStr.contains (PyStr.str_repr name)
                 (import_failure_message name modname)).
  { apply PyStrFacts.contains_middle. }
  assert (Hm : PyStr.contains (PyStr.str_repr modname)
                 (import_failure_message name modname)).
  { exists ("Could not generate reference docs for " ++ PyStr.str_repr name
              ++ ": could not import module "), EmptyString.
    unfold import_failure_message.
    now rewrite PyStrFacts.app_empty_r, !PyStrFacts.app_assoc. }
  split; [exact Hrun|].
  split; [intros nodes Hret; rewrite Hrun in Hret; discriminate|].
  split; [exact Hn|]. split; [exact Hm|].
  split; intros Hv.
  - exact (PyStrFacts.contains_trans _ _ _
             (PyStrFacts.repr_contains_verbatim _ Hv) Hn).
  - exact (PyStrFacts.contains_trans _ _ _
             (PyStrFacts.repr_contains_verbatim _ Hv) Hm).
Qed.

Lemma import_error_reported_witness :
  arguments Sample.missing_directive = ["baz"]
  /\ options Sample.missing_directive !! "module"
     = Some "bokeh.sphinxext.nowhere"
  /\ import_module "bokeh.sphinxext.nowhere"
     = Raise (ImportError "No module named bokeh.sphinxext.nowhere")
  /\ run Sample.missing_directive
     = Raise (SphinxError
                (import_failure_message "baz" "bokeh.sphinxext.nowhere"))
  /\ PyStr.contains "baz"
       (import_failure_message "baz" "bokeh.sphinxext.nowhere")
  /\ PyStr.contains "bokeh.sphinxext.nowhere"
       (import_failure_message "baz" "bokeh.sphinxext.nowhere").
Proof.
  split; [reflexivity|].
  split; [vm_compute; reflexivity|].
  split; [vm_compute; reflexivity|].
  destruct (import_error_reported Sample.missing_directive
              "baz" [] "bokeh.sphinxext.nowhere"
              "No module named bokeh.sphinxext.nowhere")
    as (Hrun & _ & _ & _ & Hname & Hmod).
  - reflexivity.
  - vm_compute; reflexivity.
  - vm_compute; reflexivity.
  - split; [exact Hrun|].
    split; [apply Hname | apply Hmod]; vm_compute; reflexivity.
Defined.



(** C6: without the [module] option [run] fails and gives no nodes: it
    raises, and for a directive with its argument what it raises is the
    [KeyError] of the missing option. *)
Theorem module_option_required `{T : Toolchain} (self : BokehEnumDirective) :
  options self !! "module" = None ->
  (exists e, run self = Raise e)
  /\ (forall nodes, run self <> Return nodes)
  /\ (forall name rest,
        arguments self = name :: rest -> run self = Raise (KeyError "module")).
Proof.
  intros Ho.
  assert (Hres : resolve self
                 = match arguments self with
                   | [] => Raise IndexError
                   | _ :: _ => Raise (KeyError "module")
                   end).
  { rewrite resolve_cases, Ho. now destruct (arguments self). }
  assert (Hrun : exists e, run self = Raise e).
  { destruct (arguments self); eexists; apply run_raise; exact Hres. }
  split; [exact Hrun|]. split.
  - intros nodes Hret. destruct Hrun as [e He]. rewrite He in Hret. discriminate.
  - intros name rest Ha. apply run_raise. now rewrite Hres, Ha.
Qed.

Lemma module_option_required_witness :
  options Sample.bare_directive !! "module" = None
  /\ run Sample.bare_directive = Raise (KeyError "module").
Proof.
  split; [vm_compute; reflexivity|].
  destruct (module_option_required Sample.bare_directive) as (_ & _ & Hkey).
  - vm_compute; reflexivity.
  - exact (Hkey "baz" [] eq_refl).
Defined.

(** ** Successful runs *)

(** C5: in a run that succeeds, the [content] keyword given to the
    template is the body of the directive as it stands. *)
Theorem content_passed_unchanged `{T : Toolchain}
    (self : BokehEnumDirective) (nodes : list Node) :
  run self = Return nodes ->
  exists args,
    render_args self = Return args
    /\ ra_content args = content self
    /\ nodes = nested_parse_with_titles (state self)
                 (to_view_list (ENUM_DETAIL_render args)).
Proof.
  rewrite run_unfold.
  destruct (render_args self) as [args|e] eqn:Hra; [|discriminate].
  intros [= <-]. exists args. split; [reflexivity|]. split; [|reflexivity].
  destruct (render_args_inv self args Hra) as (name & enum & Hres).
  destruct (render_args_resolved self name enum Hres) as (modname & _ & Hra').
  rewrite Hra' in Hra. now injection Hra as <-.
Qed.

Lemma content_passed_unchanged_witness :
  exists nodes,
    run Sample.baz_directive = Return nodes
    /\ exists args,
         render_args Sample.baz_directive = Return args
         /\ ra_content args = ["The values."]
         /\ nodes = nested_parse_with_titles (state Sample.baz_directive)
                      (to_view_list (ENUM_DETAIL_render args)).
Proof.
  exists [".. data:: baz"; "    :module: bokeh.sphinxext.sample";
          "The values."; "Enumeration(a, b, c)"].
  split; [vm_compute; reflexivity|].
  apply (content_passed_unchanged Sample.baz_directive).
  vm_compute; reflexivity.
Defined.

(** C7: a run that succeeds went through these steps in order.  The
    module named by the option was imported and the attribute looked up
    in it, [None] standing in for an attribute that is not there.  The
    short and the full form were made from its [repr]: the first and
    the last 40 characters around [" .... "] with the wrapped lines of
    the [repr] if it is longer than 180 characters, the [repr] itself
    with [None] otherwise.  The template was rendered with them, and
    the nodes returned are what the parser makes of the lines of the
    rendered text, every line attributed to ["<bokeh-prop>"]. *)
Theorem run_linear_sequence `{T : Toolchain}
    (self : BokehEnumDirective) (nodes : list Node) :
  run self = Return nodes ->
  exists name rest modname m enum shortrepr fullrepr rst_text lines,
    arguments self = name :: rest
    /\ options self !! "module" = Some modname
    /\ import_module modname = Return m
    /\ (forall o, attrs m !! name = Some o -> enum = o)
    /\ (attrs m !! name = None -> enum = PyNone /\ repr enum = "None")
    /\ (180 < String.length (repr enum) ->
        shortrepr = PyStr.take 40 (repr enum) ++ " .... "
                      ++ PyStr.drop (String.length (repr enum) - 40) (repr enum)
        /\ fullrepr = VList (TextWrapper_wrap wrapper (repr enum)))
    /\ (String.length (repr enum) <= 180 ->
        shortrepr = repr enum /\ fullrepr = VNone)
    /\ rst_text = ENUM_DETAIL_render
                    {| ra_name := name;
                       ra_module := modname;
                       ra_content := content self;
                       ra_shortrepr := shortrepr;
                       ra_fullrepr := fullrepr |}
    /\ lines = PyStr.split_newline rst_text
    /\ PyStr.join_newline lines = rst_text
    /\ Forall (fun line => PyStr.has_char "010"%char line = false) lines
    /\ nodes = nested_parse_with_titles (state self)
                 {| vl_data := lines;
                    vl_items := map (fun _ => ("<bokeh-prop>", 0%Z)) lines |}.
Proof.
  rewrite run_unfold.
  destruct (render_args self) as [args|e] eqn:Hra; [|discriminate].
  intros [= <-].
  destruct (render_args_inv self args Hra) as (name & enum & Hres).
  destruct (resolve_inv self name enum Hres)
    as (rest & modname & m & Ha & Ho & Hi & Henum).
  destruct (render_args_resolved self name _ Hres) as (modname' & Ho' & Hra').
  rewrite Ho in Ho'. injection Ho' as <-.
  rewrite Hra' in Hra. injection Hra as <-.
  exists name, rest, modname, m, enum.
  exists (fst (abbreviate (repr enum))), (snd (abbreviate (repr enum))).
  eexists. exists (PyStr.split_newline (ENUM_DETAIL_render
    {| ra_name := name;
       ra_module := modname;
       ra_content := content self;
       ra_shortrepr := fst (abbreviate (repr enum));
       ra_fullrepr := snd (abbreviate (repr enum)) |})).
  split; [exact Ha|]. split; [exact Ho|]. split; [exact Hi|].
  split; [intros o Hattr; unfold getattr in Henum; now rewrite Hattr in Henum|].
  split.
  { intros Hattr. unfold getattr in Henum. rewrite Hattr in Henum.
    subst enum. now split. }
  split; [intros Hlen; rewrite (abbreviate_long _ Hlen); now split|].
  split; [intros Hlen; rewrite (abbreviate_short _ Hlen); now split|].
  split; [reflexivity|]. split; [reflexivity|].
  split; [apply PyStrFacts.join_split_newline|].
  split; [apply PyStrFacts.split_newline_lines|].
  now rewrite to_view_list_lines.
Qed.

Lemma run_linear_sequence_witness :
  (run Sample.baz_directive
   = Return [".. data:: baz"; "    :module: bokeh.sphinxext.sample";
             "The values."; "Enumeration(a, b, c)"]
   /\ exists name rest modname m enum shortrepr fullrepr rst_text lines,
        arguments Sample.baz_directive = name :: rest
        /\ options Sample.baz_directive !! "module" = Some modname
        /\ import_module modname = Return m
        /\ (forall o, attrs m !! name = Some o -> enum = o)
        /\ (attrs m !! name = None -> enum = PyNone /\ repr enum = "None")
        /\ (180 < String.length (repr enum) ->
            shortrepr = PyStr.take 40 (repr enum) ++ " .... "
                          ++ PyStr.drop (String.length (repr enum) - 40)
                               (repr enum)
            /\ fullrepr = VList (TextWrapper_wrap wrapper (repr enum)))
        /\ (String.length (repr enum) <= 180 ->
            shortrepr = repr enum /\ fullrepr = VNone)
        /\ rst_text = ENUM_DETAIL_render
                        {| ra_name := name;
                           ra_module := modname;
                           ra_content := content Sample.baz_directive;
                           ra_shortrepr := shortrepr;
                           ra_fullrepr := fullrepr |}
        /\ lines = PyStr.split_newline rst_text
        /\ PyStr.join_newline lines = rst_text
        /\ Forall (fun line => PyStr.has_char "010"%char line = false) lines
        /\ [".. data:: baz"; "    :module: bokeh.sphinxext.sample";
            "The values."; "Enumeration(a, b, c)"]
           = nested_parse_with_titles (state Sample.baz_directive)
               {| vl_data := lines;
                  vl_items := map (fun _ => ("<bokeh-prop>", 0%Z)) lines |})
  /\ (exists nodes,
        run Sample.big_directive = Return nodes
        /\ exists name rest modname m enum shortrepr fullrepr rst_text lines,
             arguments Sample.big_directive = name :: rest
             /\ options Sample.big_directive !! "module" = Some modname
             /\ import_module modname = Return m
             /\ (forall o, attrs m !! name = Some o -> enum = o)
             /\ (attrs m !! name = None -> enum = PyNone /\ repr enum = "None")
             /\ (180 < String.length (repr enum) ->
                 shortrepr = PyStr.take 40 (repr enum) ++ " .... "
                               ++ PyStr.drop (String.length (repr enum) - 40)
                                    (repr enum)
                 /\ fullrepr = VList (TextWrapper_wrap wrapper (repr enum)))
             /\ (String.length (repr enum) <= 180 ->
                 shortrepr = repr enum /\ fullrepr = VNone)
             /\ rst_text = ENUM_DETAIL_render
                             {| ra_name := name;
                                ra_module := modname;
                                ra_content := content Sample.big_directive;
                                ra_shortrepr := shortrepr;
                                ra_fullrepr := fullrepr |}
             /\ lines = PyStr.split_newline rst_text
             /\ PyStr.join_newline lines = rst_text
             /\ Forall (fun line => PyStr.has_char "010"%char line = false)
                  lines
             /\ nodes = nested_parse_with_titles (state Sample.big_directive)
                          {| vl_data := lines;
                             vl_items :=
                               map (fun _ => ("<bokeh-prop>", 0%Z)) lines |}).
Proof.
  split.
  - split; [vm_compute; reflexivity|].
    apply (run_linear_sequence Sample.baz_directive).
    vm_compute; reflexivity.
  - exists (nested_parse_with_titles (state Sample.big_directive)
              (to_view_list
                 (ENUM_DETAIL_render
                    {| ra_name := "big";
                       ra_module := "bokeh.sphinxext.sample";
                       ra_content := [];
                       ra_shortrepr := fst (abbreviate (repr Sample.big));
                       ra_fullrepr := snd (abbreviate (repr Sample.big)) |}))).
    split; [vm_compute; reflexivity|].
    apply (run_linear_sequence Sample.big_directive).
    vm_compute; reflexivity.
Defined.



(** * Further properties *)

(** ** Literals can be read back *)

Module PyLiteralFacts.
Import PyStr PyStrFacts PyLiteral.

Lemma read_body_escape_char (quote c : ascii) (rest : string) :
  quote = "'"%char \/ quote = "034"%char ->
  read_body quote (escape_char quote c ++ rest)
  = push c (read_body quote rest).
Proof.
  intros [-> | ->]; destruct c as [[] [] [] [] [] [] [] []]; reflexivity.
Qed.

Lemma read_body_escape (quote : ascii) (s rest : string) :
  quote = "'"%char \/ quote = "034"%char ->
  read_body quote (escape quote s ++ String quote rest) = Some (s, rest).
Proof.
  intros Hq. induction s as [|c s IH].
  - change (read_body quote (String quote rest) = Some (EmptyString, rest)).
    simpl. now rewrite Ascii.eqb_refl.
  - change (escape quote (String c s))
      with (escape_char quote c ++ escape quote s).
    rewrite app_assoc, read_body_escape_char by exact Hq.
    now rewrite IH.
Qed.

Lemma read_literal_str_repr (s rest : string) :
  read_literal (str_repr s ++ rest) = Some (s, rest).
Proof.
  unfold str_repr.
  set (quote := if has_char "'"%char s && negb (has_char "034"%char s)
                then "034"%char else "'"%char).
  assert (Hq : quote = "'"%char \/ quote = "034"%char).
  { unfold quote. destruct (has_char "'"%char s && negb (has_char "034"%char s));
      [now right | now left]. }
  rewrite app_cons, app_assoc, app_cons, app_empty_l.
  unfold read_literal.
  replace (Ascii.eqb quote "'"%char || Ascii.eqb quote "034"%char) with true
    by (destruct Hq as [-> | ->]; reflexivity).
  now apply read_body_escape.
Qed.

Lemma strip_prefix_app (p s : string) : strip_prefix p (p ++ s) = Some s.
Proof.
  induction p as [|a p IH]; [reflexivity|].
  rewrite app_cons. simpl. now rewrite Ascii.eqb_refl.
Qed.

(** The message gives back the names it was made from. *)
Lemma read_import_failure_message_inverse (name modname : string) :
  read_import_failure_message (import_failure_message name modname)
  = Some (name, modname).
Proof.
  unfold read_import_failure_message, import_failure_message.
  rewrite strip_prefix_app, read_literal_str_repr, strip_prefix_app.
  rewrite <- (app_empty_r (str_repr modname)).
  now rewrite read_literal_str_repr.
Qed.

Lemma all_chars_app (f : ascii -> bool) (a b : string) :
  all_chars f (a ++ b) = all_chars f a && all_chars f b.
Proof.
  induction a as [|c a IH]; [reflexivity|].
  rewrite app_cons. simpl. now rewrite IH, andb_assoc.
Qed.

Lemma escape_char_printable (quote c : ascii) :
  quote = "'"%char \/ quote = "034"%char ->
  all_chars printable (escape_char quote c) = true.
Proof.
  intros [-> | ->]; destruct c as [[] [] [] [] [] [] [] []]; reflexivity.
Qed.

Lemma escape_printable (quote : ascii) (s : string) :
  quote = "'"%char \/ quote = "034"%char ->
  all_chars printable (escape quote s) = true.
Proof.
  intros Hq. induction s as [|c s IH]; [reflexivity|].
  change (escape quote (String c s))
    with (escape_char quote c ++ escape quote s).
  now rewrite all_chars_app, escape_char_printable, IH.
Qed.

Lemma str_repr_printable (s : string) :
  all_chars printable (str_repr s) = true.
Proof.
  unfold str_repr.
  destruct (has_char "'"%char s && negb (has_char "034"%char s)).
  - change (all_chars printable
              (String "034"%char (escape "034"%char s ++ String "034"%char EmptyString))
            = true).
    simpl. rewrite all_chars_app, escape_printable by now right. reflexivity.
  - simpl. rewrite all_chars_app, escape_printable by now left. reflexivity.
Qed.

Lemma all_chars_has_char (f : ascii -> bool) (c : ascii) (s : string) :
  all_chars f s = true -> f c = false -> has_char c s = false.
Proof.
  intros Hall Hc. induction s as [|a s IH]; [reflexivity|].
  simpl in *. apply andb_true_iff in Hall as [Ha Hall].
  rewrite (IH Hall), orb_false_r.
  apply Ascii.eqb_neq. intros ->. congruence.
Qed.

Lemma drop_drop (a b : nat) (s : string) : drop a (drop b s) = drop (b + a) s.
Proof.
  revert s; induction b as [|b IH]; intros s; [reflexivity|].
  destruct s as [|c s]; simpl; [now destruct a | apply IH].
Qed.

Lemma length_split_newline (s : string) :
  length (split_newline s) = S (count_char "010"%char s).
Proof.
  induction s as [|c s IH]; [reflexivity|]. simpl.
  destruct (Ascii.eqb c "010"%char).
  - simpl. now rewrite IH.
  - destruct (split_newline s) as [|h t]; simpl in *; [discriminate IH | exact IH].
Qed.

End PyLiteralFacts.

(** ** What [run] reads of the directive *)

(** X1: [run] reads the first argument, the [module] option, the body
    and the parser state, and nothing else: two directives that agree
    on these give the same result, whatever further arguments and
    options they carry. *)
Theorem run_ignores_other_arguments_and_options `{T : Toolchain}
    (self1 self2 : BokehEnumDirective) (name : string)
    (rest1 rest2 : list string) :
  arguments self1 = name :: rest1 ->
  arguments self2 = name :: rest2 ->
  options self1 !! "module" = options self2 !! "module" ->
  content self1 = content self2 ->
  state self1 = state self2 ->
  run self1 = run self2.
Proof.
  intros Ha1 Ha2 Ho Hc Hs.
  assert (Hres : resolve self1 = resolve self2).
  { now rewrite !resolve_cases, Ha1, Ha2, Ho. }
  unfold run, render_args, getitem. now rewrite Hres, Ho, Hc, Hs.
Qed.

Lemma run_ignores_other_arguments_and_options_witness :
  arguments Sample.cluttered_directive = ["baz"; "extra"; "more"]
  /\ options Sample.cluttered_directive !! "noindex" = Some ""
  /\ options Sample.baz_directive !! "noindex" = None
  /\ run Sample.cluttered_directive = run Sample.baz_directive.
Proof.
  split; [reflexivity|].
  split; [vm_compute; reflexivity|].
  split; [vm_compute; reflexivity|].
  apply (run_ignores_other_arguments_and_options
           Sample.cluttered_directive Sample.baz_directive
           "baz" ["extra"; "more"] []).
  - reflexivity.
  - reflexivity.
  - vm_compute; reflexivity.
  - reflexivity.
  - reflexivity.
Defined.


(** X3: an exception of the import that is not an [ImportError] is not
    turned into a [SphinxError]: it leaves [run] as it is. *)
Theorem other_import_exception_propagates `{T : Toolchain}
    (self : BokehEnumDirective) (name : string) (rest : list string)
    (modname : string) (e : exception) :
  arguments self = name :: rest ->
  options self !! "module" = Some modname ->
  import_module modname = Raise e ->
  is_ImportError e = false ->
  run self = Raise e.
Proof.
  intros Ha Ho Hi He. apply run_raise.
  now rewrite resolve_cases, Ha, Ho, Hi, He.
Qed.

Lemma other_import_exception_propagates_witness :
  arguments Sample.broken_directive = ["baz"]
  /\ options Sample.broken_directive !! "module"
     = Some "bokeh.sphinxext.broken"
  /\ import_module "bokeh.sphinxext.broken"
     = Raise (OtherException "SyntaxError")
  /\ run Sample.broken_directive = Raise (OtherException "SyntaxError").
Proof.
  split; [reflexivity|].
  split; [vm_compute; reflexivity|].
  split; [vm_compute; reflexivity|].
  apply (other_import_exception_propagates Sample.broken_directive
           "baz" [] "bokeh.sphinxext.broken").
  - reflexivity.
  - vm_compute; reflexivity.
  - vm_compute; reflexivity.
  - reflexivity.
Defined.

(** ** The abbreviation *)

(** X4: for a [repr] of more than 180 characters the short form cuts
    out the middle and nothing else: the [repr] is a head of 40
    characters, a middle of all but 80, and a tail of 40, and the short
    form is the head, [" .... "] and the tail.  It is shorter than the
    [repr] by 95 characters or more. *)
Theorem abbreviation_elides_the_middle `{T : Toolchain}
    (self : BokehEnumDirective) (name : string) (enum : object) :
  resolve self = Return (name, enum) ->
  180 < String.length (repr enum) ->
  exists args head middle tail,
    render_args self = Return args
    /\ repr enum = head ++ middle ++ tail
    /\ String.length head = 40
    /\ String.length middle = String.length (repr enum) - 80
    /\ String.length tail = 40
    /\ ra_shortrepr args = head ++ " .... " ++ tail
    /\ String.length (ra_shortrepr args) + 95 <= String.length (repr enum).
Proof.
  intros Hres Hlen.
  destruct (render_args_resolved self name enum Hres) as (modname & _ & Hra).
  set (r := repr enum) in *.
  eexists. exists (PyStr.take 40 r).
  exists (PyStr.take (String.length r - 80) (PyStr.drop 40 r)).
  exists (PyStr.drop (String.length r - 40) r).
  split; [exact Hra|]. cbn [ra_shortrepr].
  pose proof (length_abbreviate_long r Hlen) as Hshort.
  rewrite (abbreviate_long r Hlen) in *. cbn [fst] in *.
  split.
  - replace (PyStr.drop (String.length r - 40) r)
      with (PyStr.drop (String.length r - 80) (PyStr.drop 40 r)).
    + now rewrite !PyStrFacts.take_drop.
    + rewrite PyLiteralFacts.drop_drop. f_equal. lia.
  - rewrite !PyStrFacts.length_take, !PyStrFacts.length_drop.
    repeat (split; [lia || reflexivity|]). lia.
Qed.

Lemma abbreviation_elides_the_middle_witness :
  resolve Sample.big_directive = Return ("big", Sample.big)
  /\ 180 < String.length (repr Sample.big)
  /\ exists args head middle tail,
       render_args Sample.big_directive = Return args
       /\ repr Sample.big = head ++ middle ++ tail
       /\ String.length head = 40
       /\ String.length middle = String.length (repr Sample.big) - 80
       /\ String.length tail = 40
       /\ ra_shortrepr args = head ++ " .... " ++ tail
       /\ String.length (ra_shortrepr args) + 95
          <= String.length (repr Sample.big).
Proof.
  split; [vm_compute; reflexivity|].
  split; [vm_compute; lia|].
  apply (abbreviation_elides_the_middle Sample.big_directive "big" Sample.big).
  - vm_compute; reflexivity.
  - vm_compute; lia.
Defined.

(** ** The lines given to the parser *)

(** X5: the view list is never empty: it has one line more than the
    rendered text has newline characters, one source entry for each
    line, and every entry is ["<bokeh-prop>"] at offset 0. *)
Theorem view_list_shape (rst_text : string) :
  length (vl_data (to_view_list rst_text))
  = S (PyLiteral.count_char "010"%char rst_text)
  /\ length (vl_items (to_view_list rst_text))
     = length (vl_data (to_view_list rst_text))
  /\ Forall (fun item => item = ("<bokeh-prop>", 0%Z))
       (vl_items (to_view_list rst_text)).
Proof.
  rewrite to_view_list_lines. cbn [vl_data vl_items].
  rewrite length_map, PyLiteralFacts.length_split_newline.
  split; [reflexivity|]. split; [reflexivity|].
  induction (PyStr.split_newline rst_text) as [|line lines IH]; simpl;
    constructor; [reflexivity | exact IH].
Qed.

(** ** The message of the [SphinxError] *)

(** X6: whatever the two names are, the message is made of printable
    characters only; it has no newline and no carriage return in it. *)
Theorem import_failure_message_printable (name modname : string) :
  PyStr.all_chars PyStr.printable (import_failure_message name modname) = true
  /\ PyStr.has_char "010"%char (import_failure_message name modname) = false
  /\ PyStr.has_char "013"%char (import_failure_message name modname) = false.
Proof.
  assert (Hall : PyStr.all_chars PyStr.printable
                   (import_failure_message name modname) = true).
  { unfold import_failure_message.
    rewrite !PyLiteralFacts.all_chars_app, !PyLiteralFacts.str_repr_printable.
    reflexivity. }
  split; [exact Hall|].
  split; apply (PyLiteralFacts.all_chars_has_char _ _ _ Hall); reflexivity.
Qed.

(** X7: the message determines the names: two messages are the same
    only if they were made from the same attribute name and the same
    module name. *)
Theorem import_failure_message_injective (name1 modname1 name2 modname2 : string) :
  import_failure_message name1 modname1 = import_failure_message name2 modname2 ->
  name1 = name2 /\ modname1 = modname2.
Proof.
  intros Heq.
  pose proof (PyLiteralFacts.read_import_failure_message_inverse name1 modname1)
    as H1.
  rewrite Heq, PyLiteralFacts.read_import_failure_message_inverse in H1.
  injection H1 as -> ->. now split.
Qed.

Lemma import_failure_message_injective_witness :
  import_failure_message "baz" "bokeh.sphinxext.nowhere"
  = import_failure_message "baz" "bokeh.sphinxext.nowhere"
  /\ "baz" = "baz" /\ "bokeh.sphinxext.nowhere" = "bokeh.sphinxext.nowhere".
Proof.
  split; [reflexivity|].
  apply (import_failure_message_injective
           "baz" "bokeh.sphinxext.nowhere" "baz" "bokeh.sphinxext.nowhere").
  reflexivity.
Defined.

(** * Errors after the import *)

Module RaisingFacts.
Import Raising.

Section Cases.

Context `{T : Toolchain}.

(** The outcome of [Raising.run], case by case. *)
Lemma raising_run_cases (self : BokehEnumDirective) :
  run self =
  match arguments self with
  | [] => Raise IndexError
  | name :: _ =>
      match options self !! "module" with
      | None => Raise (KeyError "module")
      | Some modname =>
          match import_module modname with
          | Raise e =>
              if is_ImportError e
              then Raise (SphinxError (import_failure_message name modname))
              else Raise e
          | Return m =>
              match repr (getattr m name PyNone) with
              | Raise e => Raise e
              | Return r =>
                  match ENUM_DETAIL_render (template_args self name modname r)
                  with
                  | Raise e => Raise e
                  | Return rst_text =>
                      nested_parse_with_titles (state self)
                        (to_view_list rst_text)
                  end
              end
          end
      end
  end.
Proof.
  unfold run, resolve, getitem.
  destruct (arguments self) as [|name rest]; [reflexivity|]. simpl.
  destruct (options self !! "module") as [modname|]; [|reflexivity]. simpl.
  destruct (import_module modname) as [m|e]; simpl.
  - destruct (repr (getattr m name PyNone)) as [r|e]; [|reflexivity]. simpl.
    destruct (ENUM_DETAIL_render (template_args self name modname r));
      reflexivity.
  - destruct (is_ImportError e); reflexivity.
Qed.

End Cases.





End RaisingFacts.

(** ** [run] is [Raising.run] when nothing raises after the import *)

Lemma getattr_lift (m : module) (name : string) :
  Raising.getattr (lift_module m) name Raising.PyNone
  = lift_object (getattr m name PyNone).
Proof.
  unfold Raising.getattr, getattr, lift_module. simpl.
  rewrite lookup_fmap. now destruct (attrs m !! name).
Qed.

Lemma repr_lift (o : object) :
  Raising.repr (lift_object o) = Return (repr o).
Proof. now destruct o. Qed.

Lemma run_agrees `{T : Toolchain} (self : BokehEnumDirective) :
  Raising.run (lift_directive self) = run self.
Proof.
  rewrite RaisingFacts.raising_run_cases, run_unfold.
  unfold render_args. rewrite resolve_cases. simpl.
  destruct (arguments self) as [|name rest]; [reflexivity|].
  destruct (options self !! "module") as [modname|] eqn:Ho; [|reflexivity].
  destruct (import_module modname) as [m|e]; simpl.
  - rewrite getattr_lift, repr_lift. unfold getitem. rewrite Ho. simpl.
    unfold Raising.template_args, Raising.abbreviate, abbreviate. simpl.
    now destruct (Nat.ltb 180 (String.length (repr (getattr m name PyNone)))).
  - now destruct (is_ImportError e).
Qed.
